(** * umongo/abstract.py: the abstract schema, field, validator and
      data-object layer, embedded in Rocq.

    Python objects are modelled as records, dictionaries as finite maps
    ([gmap]) or, where iteration order matters, as association lists.
    Code that reads the process-wide translation hook, or calls a hook
    a subclass may override, lives in a state-and-exception monad. *)

From Stdlib Require Import ZArith Ascii String.
From stdpp Require Import base option list strings gmap fin_maps.

Local Open Scope string_scope.
Local Open Scope list_scope.
Set Warnings "-register-all".

(** ** Python values *)

(** The values that flow through fields.  [VMissing] is marshmallow's
    [missing] singleton, distinct from [VNone]; [VErrorDict] is a
    dictionary of raw message templates, with whether it is an
    [I18nErrorDict]; [VRef] stands for any other
    object (a callable, a validator instance, ...), known by identity. *)
Inductive PyVal : Type :=
  | VMissing
  | VNone
  | VBool (b : bool)
  | VInt (z : Z)
  | VStr (s : string)
  | VList (items : list PyVal)
  | VDict (entries : list (string * PyVal))
  | VErrorDict (i18n : bool) (raw : gmap string string)
  | VRef (addr : nat).

(** [None] or a string, as a value. *)
Definition of_str (a : option string) : PyVal :=
  match a with
  | Some s => VStr s
  | None => VNone
  end.

(** [obj is missing] *)
Definition is_missing (obj : PyVal) : bool :=
  match obj with VMissing => true | _ => false end.

(** ** Exceptions and results *)

Inductive Exn : Type :=
  | ValidationError (msg : string)
  | AttributeError (name : string)
  | KeyError (key : string)
  | IndexError
  | ValueError
  | NotImplementedError.

Inductive Result (A : Type) : Type :=
  | Ok (a : A)
  | Raise (e : Exn).
Arguments Ok {A} a.
Arguments Raise {A} e.

(** ** The state-and-exception monad

    A computation takes the current state, and gives back either a value
    or a raised exception, with the state it leaves behind. *)
Definition StateErr (S A : Type) : Type := S → Result A * S.

Global Instance StateErr_ret {S} : MRet (StateErr S) :=
  λ A a s, (Ok a, s).

Global Instance StateErr_bind {S} : MBind (StateErr S) :=
  λ A B k m s,
    match m s with
    | (Ok a, s') => k a s'
    | (Raise e, s') => (Raise e, s')
    end.

Definition raise {S A} (e : Exn) : StateErr S A := λ s, (Raise e, s).

Definition get_state {S} : StateErr S S := λ s, (Ok s, s).

Definition put_state {S} (s' : S) : StateErr S unit := λ _, (Ok tt, s').

(** Running a computation that cannot touch the state. *)
Definition lift {S A} (r : Result A) : StateErr S A := λ s, (r, s).

Definition Result_map {A B} (f : A → B) (r : Result A) : Result B :=
  match r with
  | Ok a => Ok (f a)
  | Raise e => Raise e
  end.

(** ** umongo.i18n *)

(** Modelled from the spec: the module [umongo/i18n.py] is not part of the
    sources at hand.  The translator is "a process-wide, swappable
    catalog"; [translate(message_template) -> string] "must tolerate a
    missing catalog (return the template unchanged)". *)
Module I18n.

Record World : Type := mkWorld { _gettext : option (string → string) }.

(** The translation of [message] in a given state of the process. *)
Definition translate (w : World) (message : string) : string :=
  match _gettext w with
  | Some catalog => catalog message
  | None => message
  end.

(** [gettext(message)], imported in abstract.py as [_]. *)
Definition gettext (message : string) : StateErr World string :=
  w ← get_state; mret (translate w message).

(** Swapping the catalog. *)
Definition set_gettext (catalog : option (string → string))
  : StateErr World unit :=
  put_state (mkWorld catalog).

End I18n.

(** ** [str.format] with the single keyword argument [field]

    The templates of abstract.py use plain named replacement fields only
    ([{field}], [{fields}]); conversions and format specifications are
    not modelled: whatever stands between the braces is taken as the name
    of a keyword argument.  [{{] and [}}] are the escaped braces. *)
Module Format.

Inductive Mode : Type :=
  | Text                   (* in literal text *)
  | Opened                 (* just read a brace that opens *)
  | Name (acc : string)    (* inside a replacement field *)
  | Closed.                (* just read a brace that closes, in text *)

Definition open_brace : Ascii.ascii := "{"%char.
Definition close_brace : Ascii.ascii := "}"%char.

Fixpoint scan (mode : Mode) (tpl : string) (field : string) : Result string :=
  match tpl with
  | EmptyString =>
      match mode with
      | Text => Ok EmptyString
      | _ => Raise ValueError
      end
  | String c rest =>
      match mode with
      | Text =>
          if Ascii.eqb c open_brace then scan Opened rest field
          else if Ascii.eqb c close_brace then scan Closed rest field
          else Result_map (String c) (scan Text rest field)
      | Opened =>
          if Ascii.eqb c open_brace
          then Result_map (String c) (scan Text rest field)
          else if Ascii.eqb c close_brace then Raise IndexError
          else scan (Name (String c EmptyString)) rest field
      | Name acc =>
          if Ascii.eqb c close_brace then
            if String.eqb acc "field"
            then Result_map (String.append field) (scan Text rest field)
            else Raise (KeyError acc)
          else if Ascii.eqb c open_brace then Raise ValueError
          else scan (Name (acc +:+ String c EmptyString)) rest field
      | Closed =>
          if Ascii.eqb c close_brace
          then Result_map (String c) (scan Text rest field)
          else Raise ValueError
      end
  end.

(** [tpl.format(field=key)] *)
Definition format (tpl : string) (key : string) : Result string :=
  scan Text tpl key.

(** A message cites a key when the key occurs in it. *)
Fixpoint contains (key msg : string) : bool :=
  String.prefix key msg ||
  match msg with
  | EmptyString => false
  | String _ rest => contains key rest
  end.

End Format.

(** ** Classes and their method resolution order *)

Definition Cls : Type := string.

(** [h c] is [c.mro()]: the class itself, then its ancestors in
    linearisation order. *)
Definition Hierarchy : Type := Cls → list Cls.

(** [issubclass(c, d)]: [d] occurs in the resolution order of [c]. *)
Definition issubclass (h : Hierarchy) (c d : Cls) : bool :=
  bool_decide (d ∈ h c).

(** [marshmallow.fields.Field], imported as [ma_fields.Field]. *)
Definition ma_Field : Cls := "marshmallow.fields.Field".
(** [marshmallow.validate.Validator], imported as [ma_validate.Validator]. *)
Definition ma_Validator : Cls := "marshmallow.validate.Validator".
Definition BaseField_cls : Cls := "umongo.abstract.BaseField".
Definition BaseValidator_cls : Cls := "umongo.abstract.BaseValidator".

(** A hierarchy given by a table, empty for a class it does not list. *)
Fixpoint hierarchy_of (table : list (Cls * list Cls)) (c : Cls) : list Cls :=
  match table with
  | [] => []
  | (d, order) :: rest =>
      if String.eqb c d then order else hierarchy_of rest c
  end.

(** An entry of a table is closed when its order holds the orders the
    table gives to its members. *)
Definition closed_entry (table : list (Cls * list Cls))
    (entry : Cls * list Cls) : bool :=
  forallb (λ d, forallb (λ x, bool_decide (x ∈ entry.2))
                        (hierarchy_of table d))
          entry.2.

(** What abstract.py itself says of the hierarchy it lives in:
    [class BaseField(ma_fields.Field)], so the order of [BaseField] is
    itself followed by the order of marshmallow's [Field]; that order
    holds [Field] and does not hold [BaseField]; and the order of a class
    holds the orders of the classes in it. *)
Record umongo_hierarchy (h : Hierarchy) : Prop := {
  mro_BaseField : h BaseField_cls = BaseField_cls :: h ma_Field;
  mro_ma_Field : ma_Field ∈ h ma_Field;
  mro_ma_Field_pure : BaseField_cls ∉ h ma_Field;
  mro_closed : ∀ c d, d ∈ h c → h d ⊆ h c
}.

(** The test of both projection loops:
    [not issubclass(m_class, BaseField) and
     issubclass(m_class, ma_fields.Field)]. *)
Definition is_pure_field_class (h : Hierarchy) (m_class : Cls) : bool :=
  negb (issubclass h m_class BaseField_cls) && issubclass h m_class ma_Field.

(** [for m_class in classes: if <test>: return m_class(...)], giving the
    class the loop stops at, if it stops. *)
Fixpoint first_pure_field_class (h : Hierarchy) (classes : list Cls)
  : option Cls :=
  match classes with
  | [] => None
  | m_class :: rest =>
      if is_pure_field_class h m_class then Some m_class
      else first_pure_field_class h rest
  end.

(** The object a projection builds, [m_class] called with the keyword
    arguments [kwargs], kept as the class and the arguments (the constructor is
    marshmallow's), and whether its [error_messages] were wrapped in an
    [I18nErrorDict] afterwards. *)
Record Projected : Type := mkProjected {
  m_class : Cls;
  kwargs : gmap string PyVal;
  i18n_errors : bool
}.

(** [m_field.error_messages = I18nErrorDict(m_field.error_messages)] *)
Definition wrap_error_messages (m_field : Projected) : Projected :=
  mkProjected (m_class m_field) (kwargs m_field) true.

(** [if params: kwargs.update(params)]: [None] and the empty dictionary
    are false; the entries of [params] win. *)
Definition update_with_params (kwargs : gmap string PyVal)
    (params : option (gmap string PyVal)) : gmap string PyVal :=
  match params with
  | None => kwargs
  | Some p => if Nat.eqb (size p) 0 then kwargs else p ∪ kwargs
  end.

(** ** class I18nErrorDict(dict) *)
Module I18nErrorDict.

(** The dictionary holds the raw templates. *)
Definition t : Type := gmap string string.

(** [__getitem__]: [raw_msg = dict.__getitem__(self, name)], which raises
    [KeyError] for a name that is not there, then [return _(raw_msg)]. *)
Definition __getitem__ (self : gmap string string) (name : string)
  : StateErr I18n.World string :=
  match self !! name with
  | Some raw_msg => I18n.gettext raw_msg
  | None => raise (KeyError name)
  end.

End I18nErrorDict.

(** ** class BaseField(ma_fields.Field) *)
Module BaseField.

(** The attributes of a field instance: those marshmallow's constructor
    sets, then [io_validate], [unique] and [instance] set by
    [BaseField.__init__], which also replaces [error_messages] by an
    [I18nErrorDict] of the same entries.  [attribute] and [load_from] are
    [None] or a string. *)
Record Field : Type := mkField {
  type_ : Cls;
  default : PyVal;
  attribute : option string;
  load_from : option string;
  validate : PyVal;
  required : bool;
  allow_none : bool;
  load_only : bool;
  dump_only : bool;
  missing : PyVal;
  error_messages : gmap string string;
  io_validate : PyVal;
  unique : bool;
  instance : PyVal
}.

(** The two hooks a field class may override; they are methods, so they
    receive the field. *)
Record Hooks (S : Type) : Type := mkHooks {
  _serialize_to_mongo : Field → PyVal → StateErr S PyVal;
  _deserialize_from_mongo : Field → PyVal → StateErr S PyVal
}.
Arguments mkHooks {S} _ _.
Arguments _serialize_to_mongo {S} _ _ _.
Arguments _deserialize_from_mongo {S} _ _ _.

(** The hooks as [BaseField] defines them: [return obj], [return value]. *)
Definition base_hooks {S : Type} : Hooks S :=
  mkHooks (λ self obj, mret obj) (λ self value, mret value).

Definition serialize_to_mongo {S} (cls : Hooks S) (self : Field)
    (obj : PyVal) : StateErr S PyVal :=
  if is_missing obj then mret VMissing
  else _serialize_to_mongo cls self obj.

Definition deserialize_from_mongo {S} (cls : Hooks S) (self : Field)
    (value : PyVal) : StateErr S PyVal :=
  _deserialize_from_mongo cls self value.

(** [self.error_messages[name]]: the dictionary is the [I18nErrorDict]
    that [__init__] put in place of marshmallow's. *)
Definition error_message (self : Field) (name : string)
  : StateErr I18n.World string :=
  I18nErrorDict.__getitem__ (error_messages self) name.

(** Truth value of [None] or a string: [None] and the empty string are
    false. *)
Definition truthy (a : option string) : bool :=
  match a with
  | Some s => negb (String.eqb s "")
  | None => false
  end.

(** [self.attribute or key] *)
Definition attribute_or (self : Field) (key : string) : string :=
  match attribute self with
  | Some a => if String.eqb a "" then key else a
  | None => key
  end.

(** [translate_query]: [return {self.attribute or key: query}] *)
Definition translate_query (self : Field) (key : string) (query : PyVal)
  : gmap string PyVal :=
  {[ attribute_or self key := query ]}.

Definition _extract_marshmallow_field_params (self : Field)
    (mongo_world : bool) : gmap string PyVal :=
  let params : gmap string PyVal :=
    <["default" := default self]>
    (<["load_from" := of_str (load_from self)]>
    (<["validate" := validate self]>
    (<["required" := VBool (required self)]>
    (<["allow_none" := VBool (allow_none self)]>
    (<["load_only" := VBool (load_only self)]>
    (<["dump_only" := VBool (dump_only self)]>
    (<["missing" := missing self]>
    (<["error_messages" :=
         VErrorDict true (error_messages self)]> ∅)))))))) in
  if mongo_world && truthy (attribute self)
  then <["attribute" := of_str (attribute self)]> params
  else params.

(** The method the projection calls first on its receiver. *)
Definition extract_method : string := "_extract_marshmallow_field_params".

(** [as_marshmallow_field].  [construct m_class kwargs] is the call of
    the class [m_class] with the keyword arguments [kwargs]: the
    constructor is marshmallow's, and it may raise.
    [self._extract_marshmallow_field_params] is looked up on the
    receiver: it is a method of [BaseField], so an object whose class is
    not below [BaseField] has no such attribute.  The loop returns from
    inside; when it runs out, the function ends without a [return],
    which gives [None]. *)
Definition as_marshmallow_field (h : Hierarchy)
    (construct : Cls → gmap string PyVal → Result Projected)
    (self : Field) (params : option (gmap string PyVal))
    (mongo_world : bool) : Result (option Projected) :=
  if issubclass h (type_ self) BaseField_cls then
    let kwargs := _extract_marshmallow_field_params self mongo_world in
    let kwargs := update_with_params kwargs params in
    match first_pure_field_class h (h (type_ self)) with
    | Some m_class =>
        match construct m_class kwargs with
        | Ok m_field => Ok (Some (wrap_error_messages m_field))
        | Raise e => Raise e
        end
    | None => Ok None
    end
  else Raise (AttributeError extract_method).

End BaseField.

(** ** The index kind of a field *)
Module Index.

Inductive Kind : Type :=
  | NoIndex
  | Unique
  | UniqueSparse.

Record Flags : Type := mkFlags {
  required : bool;
  allow_none : bool;
  unique : bool
}.

Definition of_field (f : BaseField.Field) : Flags :=
  mkFlags (BaseField.required f) (BaseField.allow_none f)
          (BaseField.unique f).


(** Modelled from the spec: no function under src/ computes the index
    of a field; the code that builds the indexes of a document is not
    among the sources.  These are the rows of the index-kind table of
    the specification (section 3), in its order, with its columns
    [required], [allow_none], [unique] and the index kind:
<<
    | any   | any   | false | none           |
    | true  | false | true  | unique         |
    | true  | true  | true  | unique         |
    | false | false | true  | unique         |
    | false | true  | true  | unique, sparse |
>>
*)
Definition table : list (option bool * option bool * option bool * Kind) :=
  [ (None, None, Some false, NoIndex);
    (Some true, Some false, Some true, Unique);
    (Some true, Some true, Some true, Unique);
    (Some false, Some false, Some true, Unique);
    (Some false, Some true, Some true, UniqueSparse) ].



End Index.

(** ** class BaseSchema(MaSchema) *)
Module BaseSchema.

(** [self.fields]: the fields by declared name, in the order in which
    the dictionary iterates; marshmallow fills it, and that order need
    not be the order of declaration. *)
Record Schema : Type := mkSchema {
  fields : list (string * BaseField.Field)
}.

(** [[k for k, v in self.fields.items() if not v.dump_only]] *)
Definition loadable_fields (self : Schema) : list string :=
  omap (λ kv, if BaseField.dump_only kv.2 then None else Some kv.1)
       (fields self).

(** [raise ValidationError(_('Unknown field name {field}.').format(field=key))] *)
Definition unknown_field_name : string := "Unknown field name {field}.".

Definition raise_unknown_field (key : string) : StateErr I18n.World unit :=
  tpl ← I18n.gettext unknown_field_name;
  msg ← lift (Format.format tpl key);
  raise (ValidationError msg).

(** [for key in original_data: if key not in loadable_fields: raise ...] *)
Fixpoint check_keys (loadable_fields : list string) (keys : list string)
  : StateErr I18n.World unit :=
  match keys with
  | [] => mret tt
  | key :: rest =>
      if bool_decide (key ∉ loadable_fields) then raise_unknown_field key
      else check_keys loadable_fields rest
  end.

(** [_check_unknown_fields(self, data, original_data)]: [data] is what
    the fields made of the input, [original_data] the input itself, a
    dictionary iterated in its own order. *)
Definition _check_unknown_fields (self : Schema) (data : PyVal)
    (original_data : list (string * PyVal)) : StateErr I18n.World unit :=
  let loadable_fields := loadable_fields self in
  check_keys loadable_fields original_data.*1.

(** [map_to_field(self, func)], a loop over [self.fields.items()] in the
    order in which that dictionary iterates.
    [func(mongo_path, path, field)] is any callable, its result is
    dropped.  [nested field] is the method [field.map_to_field] of the
    fields that have one ([hasattr(field, 'map_to_field')]);
    [BaseField] has none. *)
Definition Visitor (S : Type) : Type :=
  string → string → BaseField.Field → StateErr S PyVal.

Fixpoint visit_fields {S} (items : list (string * BaseField.Field))
    (nested : BaseField.Field →
              option (string → string → Visitor S → StateErr S PyVal))
    (func : Visitor S) : StateErr S unit :=
  match items with
  | [] => mret tt
  | (name, field) :: rest =>
      let mongo_path := BaseField.attribute_or field name in
      _ ← func mongo_path name field;
      _ ← match nested field with
          | Some field_map_to_field => field_map_to_field mongo_path name func
          | None => mret VNone
          end;
      visit_fields rest nested func
  end.

Definition map_to_field {S} (self : Schema)
    (nested : BaseField.Field →
              option (string → string → Visitor S → StateErr S PyVal))
    (func : Visitor S) : StateErr S unit :=
  visit_fields (fields self) nested func.

(** What the namespace of a projected schema class holds: the
    projection of a field, or the check of unknown keys wrapped by
    [validates_schema(pass_original=True)]. *)
Inductive Member : Type :=
  | FieldMember (m_field : option Projected)
  | CheckUnknownFields.

(** The class [type(name, bases, nmspc)] makes. *)
Record SchemaClass : Type := mkSchemaClass {
  class_name : string;
  bases : list Cls;
  nmspc : gmap string Member
}.

(** [params = params or {}] *)
Definition params_or_empty (params : option (gmap string (gmap string PyVal)))
  : gmap string (gmap string PyVal) :=
  match params with
  | Some p => if Nat.eqb (size p) 0 then ∅ else p
  | None => ∅
  end.

(** The dictionary comprehension over [self.fields.items()], an entry
    after the other: [name: field.as_marshmallow_field(
    params=params.get(name), mongo_world=mongo_world)]; an exception
    raised for a field ends it. *)
Fixpoint project_fields (h : Hierarchy)
    (construct : Cls → gmap string PyVal → Result Projected)
    (params : gmap string (gmap string PyVal)) (mongo_world : bool)
    (items : list (string * BaseField.Field)) (nmspc : gmap string Member)
  : Result (gmap string Member) :=
  match items with
  | [] => Ok nmspc
  | (name, field) :: rest =>
      match BaseField.as_marshmallow_field h construct field
              (params !! name) mongo_world with
      | Ok m_field =>
          project_fields h construct params mongo_world rest
            (<[name := FieldMember m_field]> nmspc)
      | Raise e => Raise e
      end
  end.

Definition check_member : string := "__check_unknown_fields".

(** [as_marshmallow_schema]; [type_name] is [type(self).__name__]. *)
Definition as_marshmallow_schema (h : Hierarchy)
    (construct : Cls → gmap string PyVal → Result Projected)
    (type_name : string) (self : Schema)
    (params : option (gmap string (gmap string PyVal)))
    (base_schema_cls : Cls) (check_unknown_fields mongo_world : bool)
  : Result SchemaClass :=
  let params := params_or_empty params in
  match project_fields h construct params mongo_world (fields self) ∅ with
  | Ok nmspc =>
      let nmspc :=
        if check_unknown_fields
        then <[check_member := CheckUnknownFields]> nmspc
        else nmspc in
      Ok (mkSchemaClass ("Marshmallow" +:+ type_name) [base_schema_cls]
                        nmspc)
  | Raise e => Raise e
  end.

End BaseSchema.

(** ** class BaseValidator(ma_validate.Validator) *)
Module BaseValidator.

(** A validator instance: its class, the [_error] slot ([None] or a
    template), and its other attributes, those of the instance and those
    found on its classes. *)
Record Validator : Type := mkValidator {
  type_ : Cls;
  _error : option string;
  attrs : gmap string PyVal
}.

(** [__init__] sets [self._error = None] and hands over to the
    constructor of the next class, given here as [super_init]. *)
Definition __init__ (cls : Cls)
    (super_init : Validator → StateErr I18n.World Validator)
  : StateErr I18n.World Validator :=
  super_init (mkValidator cls None ∅).

(** The setter of the [error] property: [self._error = value]. *)
Definition set_error (self : Validator) (value : option string)
  : Validator :=
  mkValidator (type_ self) value (attrs self).

(** The getter of the [error] property: [return _(self._error)].  The
    catalog is a map on templates; [None], which is none, comes back as
    it is. *)
Definition error (self : Validator) : StateErr I18n.World (option string) :=
  match _error self with
  | Some raw => msg ← I18n.gettext raw; mret (Some msg)
  | None => mret None
  end.

(** [getattr(self, name)] *)
Definition getattr (self : Validator) (name : string)
  : StateErr I18n.World PyVal :=
  if String.eqb name "error" then msg ← error self; mret (of_str msg)
  else if String.eqb name "_error" then mret (of_str (_error self))
  else match attrs self !! name with
       | Some v => mret v
       | None => raise (AttributeError name)
       end.

Definition projected_names : list string :=
  [ "default"; "attribute"; "load_from"; "validate"; "required";
    "allow_none"; "load_only"; "dump_only"; "missing"; "error_messages" ].

(** [{field: getattr(self, field) for field in names}] *)
Fixpoint collect (self : Validator) (names : list string)
  : StateErr I18n.World (gmap string PyVal) :=
  match names with
  | [] => mret ∅
  | field :: rest =>
      v ← getattr self field;
      kwargs ← collect self rest;
      mret (<[field := v]> kwargs)
  end.

(** [as_marshmallow_validator]: as for fields, the loop returns from
    inside, and running out of it gives [None]. *)
Definition as_marshmallow_validator (h : Hierarchy) (self : Validator)
    (params : option (gmap string PyVal)) (mongo_world : bool)
  : StateErr I18n.World (option Projected) :=
  kwargs ← collect self projected_names;
  let kwargs := update_with_params kwargs params in
  match first_pure_field_class h (h (type_ self)) with
  | Some m_class => mret (Some (mkProjected m_class kwargs false))
  | None => mret None
  end.

End BaseValidator.

(** ** class BaseDataObject *)
Module BaseDataObject.

(** The methods of a data-object class, over objects known by
    reference.  [construct] is the call of the class, [call] the call of
    an instance. *)
Record Methods (S : Type) : Type := mkMethods {
  construct : StateErr S PyVal;
  call : PyVal → PyVal → StateErr S PyVal;
  is_modified : PyVal → StateErr S PyVal;
  clear_modified : PyVal → StateErr S PyVal;
  from_mongo : PyVal → PyVal → StateErr S PyVal;
  to_mongo : PyVal → PyVal → StateErr S PyVal;
  dump : PyVal → StateErr S PyVal
}.
Arguments mkMethods {S} _ _ _ _ _ _ _.
Arguments construct {S} _.
Arguments call {S} _ _ _.
Arguments is_modified {S} _ _.
Arguments clear_modified {S} _ _.
Arguments from_mongo {S} _ _ _.
Arguments to_mongo {S} _ _ _.
Arguments dump {S} _ _.

(** The methods as [BaseDataObject] defines them. *)
Definition base {S : Type} (construct : StateErr S PyVal)
    (call : PyVal → PyVal → StateErr S PyVal) : Methods S :=
  mkMethods construct call
    (λ self, raise NotImplementedError)
    (λ self, raise NotImplementedError)
    (λ self data, call self data)
    (λ self update, mret self)
    (λ self, mret self).

(** [build_from_mongo(cls, data)] *)
Definition build_from_mongo {S} (cls : Methods S) (data : PyVal)
  : StateErr S PyVal :=
  doc ← construct cls;
  _ ← from_mongo cls doc data;
  mret doc.

End BaseDataObject.

(** ** Concrete classes, fields and inputs *)
Module Examples.

Definition object_cls : Cls := "object".
Definition ma_FieldABC : Cls := "marshmallow.base.FieldABC".
Definition ma_String : Cls := "marshmallow.fields.String".
Definition ma_Range : Cls := "marshmallow.validate.Range".
(** [class StrField(BaseField, ma_fields.String)] *)
Definition StrField : Cls := "umongo.fields.StrField".
(** [class Range(BaseValidator, ma_validate.Range)] *)
Definition Range : Cls := "umongo.validate.Range".
(** A class that inherits from [object] alone. *)
Definition Detached : Cls := "Detached".

Definition classes : list (Cls * list Cls) :=
  [ (object_cls, [object_cls]);
    (ma_FieldABC, [ma_FieldABC; object_cls]);
    (ma_Field, [ma_Field; ma_FieldABC; object_cls]);
    (ma_String, [ma_String; ma_Field; ma_FieldABC; object_cls]);
    (BaseField_cls, [BaseField_cls; ma_Field; ma_FieldABC; object_cls]);
    (StrField,
     [StrField; BaseField_cls; ma_String; ma_Field; ma_FieldABC;
      object_cls]);
    (ma_Validator, [ma_Validator; object_cls]);
    (ma_Range, [ma_Range; ma_Validator; object_cls]);
    (BaseValidator_cls, [BaseValidator_cls; ma_Validator; object_cls]);
    (Range,
     [Range; BaseValidator_cls; ma_Range; ma_Validator; object_cls]);
    (Detached, [Detached; object_cls]) ].

Definition mro : Hierarchy := hierarchy_of classes.

Definition field_messages : gmap string string :=
  {[ "unique" := "Field value must be unique.";
     "unique_compound" :=
       "Values of fields {fields} must be unique together." ]}.

(** A field of class [cls] with marshmallow's defaults. *)
Definition field_of (cls : Cls) : BaseField.Field :=
  BaseField.mkField cls VMissing None None VNone false false false false
                    VMissing field_messages VNone false VNone.

(** [name = StrField()] *)
Definition name_field : BaseField.Field := field_of StrField.

(** [created = StrField(dump_only=True)] *)
Definition created_field : BaseField.Field :=
  BaseField.mkField StrField VMissing None None VNone false false false true
                    VMissing field_messages VNone false VNone.

(** [nick = StrField(attribute='n')] *)
Definition nick_field : BaseField.Field :=
  BaseField.mkField StrField VMissing (Some "n") None VNone false false
                    false false VMissing field_messages VNone false VNone.

Definition name_schema : BaseSchema.Schema :=
  BaseSchema.mkSchema [("name", name_field)].

Definition stamped_schema : BaseSchema.Schema :=
  BaseSchema.mkSchema [("name", name_field); ("created", created_field)].

(** No catalog installed. *)
Definition plain : I18n.World := I18n.mkWorld None.

(** A catalog that knows two templates. *)
Definition french (message : string) : string :=
  if String.eqb message "Field value must be unique."
  then "La valeur doit etre unique."
  else if String.eqb message "Must be at least {min}."
  then "Doit valoir au moins {min}."
  else message.

(** What marshmallow's [Range.__init__] does with its arguments, as far
    as the attributes go: [self.min = min], [self.max = max],
    [self.error = error]. *)
Definition Range_init (min max : PyVal) (error : option string)
    (self : BaseValidator.Validator)
  : StateErr I18n.World BaseValidator.Validator :=
  mret (BaseValidator.set_error
          (BaseValidator.mkValidator (BaseValidator.type_ self)
             (BaseValidator._error self)
             (<["min" := min]> (<["max" := max]> (BaseValidator.attrs self))))
          error).

(** [Range(min=0)], once built. *)
Definition range_validator : BaseValidator.Validator :=
  BaseValidator.mkValidator Range None
    (<["min" := VInt 0]> (<["max" := VNone]> ∅)).

(** A validator that was given, by hand, every attribute the projection
    asks for. *)
Definition dressed_validator : BaseValidator.Validator :=
  BaseValidator.mkValidator Range None
    (list_to_map ((λ n, (n, VNone)) <$> BaseValidator.projected_names)).

(** An object of class [Detached] with the attributes of a field. *)
Definition detached_field : BaseField.Field := field_of Detached.

(** Hooks of a field class that count their calls, the state being the
    count. *)
Definition counting_hooks : BaseField.Hooks nat :=
  BaseField.mkHooks
    (λ self obj, n ← get_state; _ ← put_state (S n); mret obj)
    (λ self value, n ← get_state; _ ← put_state (S n); mret value).

(** A document class that keeps its own dirty flag, the state being that
    flag, and takes everything else from [BaseDataObject]. *)
Definition document_methods : BaseDataObject.Methods bool :=
  BaseDataObject.mkMethods
    (mret (VRef 0))
    (λ self data, mret VNone)
    (λ self, modified ← get_state; mret (VBool modified))
    (λ self, _ ← put_state false; mret VNone)
    (BaseDataObject.from_mongo (BaseDataObject.base (mret (VRef 0))
                                  (λ self data, mret VNone)))
    (BaseDataObject.to_mongo (BaseDataObject.base (mret (VRef 0))
                                (λ self data, mret VNone)))
    (BaseDataObject.dump (BaseDataObject.base (mret (VRef 0))
                            (λ self data, mret VNone))).

(** Reading a message, swapping the catalog, and reading the message of
    the same object again. *)
Definition read_swap_read {A} (read : StateErr I18n.World A)
    (catalog : option (string → string)) : StateErr I18n.World (A * A) :=
  before ← read;
  _ ← I18n.set_gettext catalog;
  after ← read;
  mret (before, after).

(** Hooks of a field class that stores a value boxed in a list of one
    element, and unboxes what it reads; reading anything else fails. *)
Definition boxing_hooks {S : Type} : BaseField.Hooks S :=
  BaseField.mkHooks
    (λ self obj, mret (VList [obj]))
    (λ self value,
       match value with
       | VList [obj] => mret obj
       | _ => raise ValueError
       end).

(** A visitor that writes down the paths it is called with, the state
    being the calls so far. *)
Definition recording_visitor : BaseSchema.Visitor (list (string * string)) :=
  λ mongo_path path field,
    calls ← get_state;
    _ ← put_state (calls ++ [(mongo_path, path)]);
    mret VNone.

(** A visitor that writes the paths down, and refuses the field named
    [nick]. *)
Definition refusing_visitor : BaseSchema.Visitor (list (string * string)) :=
  λ mongo_path path field,
    if String.eqb path "nick" then raise (KeyError path)
    else recording_visitor mongo_path path field.

(** A schema whose [fields] iterate as [name], [nick], which has an
    alias, and [created]. *)
Definition aliased_schema : BaseSchema.Schema :=
  BaseSchema.mkSchema
    [("name", name_field); ("nick", nick_field); ("created", created_field)].

(** The same names and directions, with no alias. *)
Definition unaliased_schema : BaseSchema.Schema :=
  BaseSchema.mkSchema
    [("name", name_field); ("nick", name_field); ("created", created_field)].

(** The constructor of a marshmallow field, as far as [validate] goes:
    it takes [None], a callable or a collection of callables, and raises
    [ValueError] for a number, a truth value, a string or [missing]. *)
Definition ma_init (m_class : Cls) (kwargs : gmap string PyVal)
  : Result Projected :=
  match kwargs !! "validate" with
  | Some (VInt _) | Some (VBool _) | Some (VStr _) | Some VMissing =>
      Raise ValueError
  | _ => Ok (mkProjected m_class kwargs false)
  end.

End Examples.

(** * Properties *)

(** ** The monad *)

Lemma bind_ret {S A B} (a : A) (k : A → StateErr S B) (s : S) :
  (mret a ≫= k) s = k a s.
Proof. reflexivity. Qed.

Lemma bind_raise {S A B} (e : Exn) (k : A → StateErr S B) (s : S) :
  (raise e ≫= k) s = (Raise e, s).
Proof. reflexivity. Qed.

Lemma gettext_run (message : string) (w : I18n.World) :
  I18n.gettext message w = (Ok (I18n.translate w message), w).
Proof. reflexivity. Qed.


(** ** Fields: conversion to and from the storage representation *)

(** C1.  For a field with the hooks of [BaseField], converting a value to
    the storage representation and converting the result back gives the
    value again, raises nothing and leaves the state alone.  This holds
    for every value, so for every value other than [missing]. *)
Theorem base_field_round_trip {S : Type} (self : BaseField.Field)
    (v : PyVal) (s : S) :
  (BaseField.serialize_to_mongo BaseField.base_hooks self v
     ≫= BaseField.deserialize_from_mongo BaseField.base_hooks self) s
  = (Ok v, s).
Proof.
  unfold BaseField.serialize_to_mongo, BaseField.deserialize_from_mongo.
  destruct v; reflexivity.
Qed.

(** C5.  Whatever the hooks of the field class are, [serialize_to_mongo]
    gives [missing] for [missing]: nothing is raised and the state is the
    one before the call, so the hook was not run.  For every other value
    the call is the call of the hook. *)
Theorem serialize_to_mongo_missing {S : Type} (cls : BaseField.Hooks S)
    (self : BaseField.Field) (s : S) :
  BaseField.serialize_to_mongo cls self VMissing s = (Ok VMissing, s)
  ∧ ∀ obj, obj ≠ VMissing →
      BaseField.serialize_to_mongo cls self obj s
      = BaseField._serialize_to_mongo cls self obj s.
Proof.
  split; [reflexivity |].
  intros obj Hobj. unfold BaseField.serialize_to_mongo.
  destruct obj; simpl; try reflexivity. by destruct Hobj.
Qed.

(** With hooks that count their calls: no call for [missing], one call
    for the number 1. *)
Lemma serialize_to_mongo_missing_witness :
  BaseField.serialize_to_mongo Examples.counting_hooks Examples.name_field
    VMissing 0 = (Ok VMissing, 0)
  ∧ BaseField.serialize_to_mongo Examples.counting_hooks Examples.name_field
      (VInt 1) 0 = (Ok (VInt 1), 1).
Proof.
  destruct (serialize_to_mongo_missing Examples.counting_hooks
              Examples.name_field 0) as [Hmissing Hother].
  split; [exact Hmissing |].
  rewrite (Hother (VInt 1)); [reflexivity | discriminate].
Defined.

(** C9.  [translate_query] gives a dictionary of one entry: the query,
    under the attribute of the field when the field has one (a string
    that is not empty), under the given key otherwise. *)
Theorem translate_query_single_entry (self : BaseField.Field)
    (key : string) (query : PyVal) :
  let stored :=
    match BaseField.attribute self with
    | Some a => if decide (a = "") then key else a
    | None => key
    end in
  BaseField.translate_query self key query = {[ stored := query ]}
  ∧ map_to_list (BaseField.translate_query self key query)
    = [(stored, query)]
  ∧ size (BaseField.translate_query self key query) = 1.
Proof.
  unfold BaseField.translate_query, BaseField.attribute_or.
  destruct (BaseField.attribute self) as [a|].
  - destruct (String.eqb_spec a "") as [->|Hne].
    + rewrite decide_True by reflexivity.
      split_and!; [done | apply map_to_list_singleton | apply map_size_singleton].
    + rewrite decide_False by assumption.
      split_and!; [done | apply map_to_list_singleton | apply map_size_singleton].
  - split_and!; [done | apply map_to_list_singleton | apply map_size_singleton].
Qed.

(** ** Data objects *)

(** C10.  For a data-object class that takes [to_mongo] and [dump] from
    [BaseDataObject], both give back the object they were called on,
    whatever [update] is; nothing is raised and the state is kept. *)
Theorem base_data_object_identity {S : Type}
    (cls : BaseDataObject.Methods S) (construct : StateErr S PyVal)
    (call : PyVal → PyVal → StateErr S PyVal) :
  BaseDataObject.to_mongo cls
    = BaseDataObject.to_mongo (BaseDataObject.base construct call) →
  BaseDataObject.dump cls
    = BaseDataObject.dump (BaseDataObject.base construct call) →
  ∀ (self update : PyVal) (s : S),
    BaseDataObject.to_mongo cls self update s = (Ok self, s)
    ∧ BaseDataObject.dump cls self s = (Ok self, s).
Proof.
  intros Hto Hdump self update s.
  rewrite Hto, Hdump. split; reflexivity.
Qed.

Lemma base_data_object_identity_witness :
  BaseDataObject.to_mongo Examples.document_methods (VRef 7) (VBool true) true
    = (Ok (VRef 7), true)
  ∧ BaseDataObject.dump Examples.document_methods (VRef 7) true
    = (Ok (VRef 7), true).
Proof.
  apply (base_data_object_identity Examples.document_methods
           (mret (VRef 0)) (λ self data, mret VNone));
    reflexivity.
Defined.

(** ** The index kind *)


(** ** Error messages and the catalog *)

Lemma getitem_run (d : gmap string string) (name raw : string)
    (w : I18n.World) :
  d !! name = Some raw →
  I18nErrorDict.__getitem__ d name w = (Ok (I18n.translate w raw), w).
Proof. intros Hd. unfold I18nErrorDict.__getitem__. by rewrite Hd. Qed.

Lemma error_run (v : BaseValidator.Validator) (raw : string)
    (w : I18n.World) :
  BaseValidator._error v = Some raw →
  BaseValidator.error v w = (Ok (Some (I18n.translate w raw)), w).
Proof. intros Hv. unfold BaseValidator.error. by rewrite Hv. Qed.

(** The setter stores the template as it is given. *)
Lemma set_error_stores (v : BaseValidator.Validator) (raw : option string) :
  BaseValidator._error (BaseValidator.set_error v raw) = raw.
Proof. reflexivity. Qed.

(** Building a [Range] stores the template it is given, whatever the
    catalog is at that moment, and does not touch the catalog. *)
Lemma range_construction (min max : PyVal) (error : option string)
    (w : I18n.World) :
  ∃ v, BaseValidator.__init__ Examples.Range
         (Examples.Range_init min max error) w = (Ok v, w)
       ∧ BaseValidator._error v = error
       ∧ BaseValidator.type_ v = Examples.Range.
Proof. eexists. split_and!; reflexivity. Qed.

(** C6.  A field and a validator keep the raw template, and every
    reading of a message translates it with the catalog of the moment:
    reading, swapping the catalog and reading from the same object again
    gives the translation under the first catalog, then the translation
    under the second, and leaves the second catalog in place. *)
Theorem translation_is_lazy (w : I18n.World)
    (catalog : option (string → string))
    (f : BaseField.Field) (name raw : string)
    (v : BaseValidator.Validator) (template : string) :
  BaseField.error_messages f !! name = Some raw →
  BaseValidator._error v = Some template →
  Examples.read_swap_read (BaseField.error_message f name) catalog w
    = (Ok (I18n.translate w raw,
           I18n.translate (I18n.mkWorld catalog) raw),
       I18n.mkWorld catalog)
  ∧ Examples.read_swap_read (BaseValidator.error v) catalog w
    = (Ok (Some (I18n.translate w template),
           Some (I18n.translate (I18n.mkWorld catalog) template)),
       I18n.mkWorld catalog).
Proof.
  intros Hf Hv. unfold Examples.read_swap_read, BaseField.error_message.
  split.
  - unfold mbind, StateErr_bind. rewrite (getitem_run _ name raw w Hf).
    unfold I18n.set_gettext, put_state.
    by rewrite (getitem_run _ name raw _ Hf).
  - unfold mbind, StateErr_bind. rewrite (error_run v template w Hv).
    unfold I18n.set_gettext, put_state.
    by rewrite (error_run v template _ Hv).
Qed.

Lemma translation_is_lazy_witness :
  Examples.read_swap_read
    (BaseField.error_message Examples.name_field "unique")
    (Some Examples.french) Examples.plain
    = (Ok ("Field value must be unique.", "La valeur doit etre unique."),
       I18n.mkWorld (Some Examples.french))
  ∧ Examples.read_swap_read
      (BaseValidator.error
         (BaseValidator.set_error Examples.range_validator
            (Some "Must be at least {min}.")))
      (Some Examples.french) Examples.plain
    = (Ok (Some "Must be at least {min}.",
           Some "Doit valoir au moins {min}."),
       I18n.mkWorld (Some Examples.french)).
Proof.
  apply (translation_is_lazy Examples.plain (Some Examples.french)
           Examples.name_field "unique" "Field value must be unique."
           (BaseValidator.set_error Examples.range_validator
              (Some "Must be at least {min}."))
           "Must be at least {min}.").
  - vm_compute. reflexivity.
  - reflexivity.
Defined.

(** ** Formatting the message of an unknown key *)

Lemma prefix_append (key rest : string) :
  String.prefix key (key +:+ rest) = true.
Proof.
  induction key as [|c key IH]; simpl.
  - by destruct rest.
  - destruct (ascii_dec c c); [exact IH | congruence].
Qed.

Lemma prefix_contains (key msg : string) :
  String.prefix key msg = true → Format.contains key msg = true.
Proof. destruct msg; simpl; intros ->; reflexivity. Qed.

Lemma contains_append (before key rest : string) :
  Format.contains key (before +:+ key +:+ rest) = true.
Proof.
  induction before as [|c before IH].
  - apply prefix_contains. exact (prefix_append key rest).
  - change (String c before +:+ key +:+ rest)
      with (String c (before +:+ key +:+ rest)).
    simpl. rewrite IH. apply orb_true_r.
Qed.

(** Without a translation the template formats, and the message holds
    the key. *)
Lemma format_unknown_field_name (key : string) :
  Format.format BaseSchema.unknown_field_name key
  = Ok ("Unknown field name " +:+ key +:+ ".").
Proof. reflexivity. Qed.

Lemma raise_unknown_field_run (key msg : string) (w : I18n.World) :
  Format.format (I18n.translate w BaseSchema.unknown_field_name) key
    = Ok msg →
  BaseSchema.raise_unknown_field key w = (Raise (ValidationError msg), w).
Proof.
  intros Hfmt. unfold BaseSchema.raise_unknown_field.
  unfold mbind, StateErr_bind. rewrite gettext_run.
  unfold lift. by rewrite Hfmt.
Qed.

(** ** The check of unknown keys *)

Lemma check_keys_loadable (loadable keys : list string) (w : I18n.World) :
  Forall (λ k, k ∈ loadable) keys →
  BaseSchema.check_keys loadable keys w = (Ok tt, w).
Proof.
  induction 1 as [|k keys Hk _ IH]; simpl; [reflexivity |].
  rewrite bool_decide_false by (intros Hn; exact (Hn Hk)). exact IH.
Qed.

Lemma check_keys_first_unknown (loadable before after : list string)
    (key : string) (w : I18n.World) :
  Forall (λ k, k ∈ loadable) before →
  key ∉ loadable →
  BaseSchema.check_keys loadable (before ++ key :: after) w
  = BaseSchema.raise_unknown_field key w.
Proof.
  intros Hbefore Hkey.
  induction Hbefore as [|k before Hk _ IH]; simpl.
  - by rewrite bool_decide_true.
  - rewrite bool_decide_false by (intros Hn; exact (Hn Hk)). exact IH.
Qed.

(** A list with a key that is not loadable splits at the first such key. *)
Lemma first_unknown_key (loadable keys : list string) :
  Exists (λ k, k ∉ loadable) keys →
  ∃ before key after,
    keys = before ++ key :: after
    ∧ Forall (λ k, k ∈ loadable) before
    ∧ key ∉ loadable.
Proof.
  induction keys as [|k keys IH]; intros Hex.
  - by apply Exists_nil in Hex.
  - destruct (decide (k ∈ loadable)) as [Hin | Hout].
    + apply Exists_cons in Hex as [Hk | Hex]; [done |].
      destruct (IH Hex) as (before & key & after & -> & Hall & Hkey).
      exists (k :: before), key, after. split_and!; [done | | done].
      by constructor.
    + exists [], k, keys. split_and!; [done | constructor | done].
Qed.

(** In a dictionary a name has one field. *)
Lemma field_of_name_unique {A} (fields : list (string * A)) (k : string)
    (a b : A) :
  NoDup fields.*1 → (k, a) ∈ fields → (k, b) ∈ fields → a = b.
Proof.
  induction fields as [|[k' c] fields IH]; simpl; intros Hnd Ha Hb.
  - by apply elem_of_nil in Ha.
  - apply NoDup_cons in Hnd as [Hk' Hnd].
    apply elem_of_cons in Ha as [Ha | Ha];
      apply elem_of_cons in Hb as [Hb | Hb].
    + congruence.
    + exfalso. apply Hk'. injection Ha as <- _.
      apply list_elem_of_fmap. by exists (k, b).
    + exfalso. apply Hk'. injection Hb as <- _.
      apply list_elem_of_fmap. by exists (k, a).
    + by apply IH.
Qed.

Lemma loadable_fields_spec (self : BaseSchema.Schema) (k : string) :
  k ∈ BaseSchema.loadable_fields self ↔
  ∃ f, (k, f) ∈ BaseSchema.fields self ∧ BaseField.dump_only f = false.
Proof.
  unfold BaseSchema.loadable_fields. rewrite list_elem_of_omap. split.
  - intros ([k' f] & Hin & Hsome). simpl in Hsome.
    destruct (BaseField.dump_only f) eqn:E; [discriminate |].
    injection Hsome as ->. by exists f.
  - intros (f & Hin & Hdump). exists (k, f). simpl. by rewrite Hdump.
Qed.

(** C2, counterexample.  Two keys of the input are unknown to the schema;
    the check raises one error, for the first of them, and its message
    does not hold the second. *)
Lemma unknown_keys_second_not_cited :
("phantom" ∉ BaseSchema.loadable_fields Examples.name_schema)
  ∧ BaseSchema._check_unknown_fields Examples.name_schema VNone
      [("ghost", VInt 1); ("phantom", VInt 2)] Examples.plain
    = (Raise (ValidationError "Unknown field name ghost."), Examples.plain)
  ∧ Format.contains "phantom" "Unknown field name ghost." = false.
Proof.
  split_and!; [| reflexivity | reflexivity].
  vm_compute. intros H. apply elem_of_cons in H as [H | H]; [discriminate |].
  by apply elem_of_nil in H.
Qed.

(** C2, amended.  When the input has a key that is not the name of a
    loadable field, the check raises one [ValidationError], made for the
    first such key in the order of the input, whatever the fields made of
    the input ([data]) and whatever follows that key; the catalog
    translates the template, here into one that formats.  With the
    template as it stands the message is [Unknown field name <key>.],
    which holds the key. *)
Theorem unknown_key_first_is_cited (w : I18n.World)
    (self : BaseSchema.Schema) (data : PyVal)
    (before after : list (string * PyVal)) (key : string) (v : PyVal)
    (msg : string) :
  Forall (λ kv, kv.1 ∈ BaseSchema.loadable_fields self) before →
  key ∉ BaseSchema.loadable_fields self →
  Format.format (I18n.translate w BaseSchema.unknown_field_name) key
    = Ok msg →
  BaseSchema._check_unknown_fields self data (before ++ (key, v) :: after) w
    = (Raise (ValidationError msg), w)
  ∧ (I18n.translate w BaseSchema.unknown_field_name
       = BaseSchema.unknown_field_name →
     msg = "Unknown field name " +:+ key +:+ "."
     ∧ Format.contains key msg = true).
Proof.
  intros Hbefore Hkey Hfmt. split.
  - unfold BaseSchema._check_unknown_fields.
    rewrite fmap_app, fmap_cons. simpl.
    rewrite check_keys_first_unknown; [| by apply Forall_fmap | done].
    by apply raise_unknown_field_run.
  - intros Hplain. rewrite Hplain, format_unknown_field_name in Hfmt.
    injection Hfmt as <-. split; [reflexivity |].
    apply contains_append.
Qed.

Lemma unknown_key_first_is_cited_witness :
  BaseSchema._check_unknown_fields Examples.name_schema VNone
    ([] ++ ("ghost", VInt 1) :: []) Examples.plain
    = (Raise (ValidationError "Unknown field name ghost."), Examples.plain)
  ∧ (I18n.translate Examples.plain BaseSchema.unknown_field_name
       = BaseSchema.unknown_field_name →
     "Unknown field name ghost." = "Unknown field name " +:+ "ghost" +:+ "."
     ∧ Format.contains "ghost" "Unknown field name ghost." = true).
Proof.
  apply (unknown_key_first_is_cited Examples.plain Examples.name_schema
           VNone [] [] "ghost" (VInt 1) "Unknown field name ghost.").
  - constructor.
  - vm_compute. intros H.
    apply elem_of_cons in H as [H | H]; [discriminate |].
    by apply elem_of_nil in H.
  - reflexivity.
Defined.

(** C8.  A key of the input that is the name of a [dump_only] field is
    not among the loadable names, and the check then raises a
    [ValidationError], for the first key of the input that is not
    loadable; the catalog translates the template into one that
    formats. *)
Theorem dump_only_key_is_rejected (w : I18n.World)
    (self : BaseSchema.Schema) (data : PyVal)
    (original_data : list (string * PyVal)) (key : string)
    (f : BaseField.Field) (v : PyVal) :
  NoDup (BaseSchema.fields self).*1 →
  (key, f) ∈ BaseSchema.fields self →
  BaseField.dump_only f = true →
  (key, v) ∈ original_data →
  (∀ k, ∃ msg,
     Format.format (I18n.translate w BaseSchema.unknown_field_name) k
       = Ok msg) →
  (key ∉ BaseSchema.loadable_fields self)
  ∧ ∃ k msg,
      k ∈ original_data.*1
      ∧ (k ∉ BaseSchema.loadable_fields self)
      ∧ Format.format (I18n.translate w BaseSchema.unknown_field_name) k
        = Ok msg
      ∧ BaseSchema._check_unknown_fields self data original_data w
        = (Raise (ValidationError msg), w).
Proof.
  intros Hnd Hf Hdump Hkey Hfmt.
  assert (Hout : key ∉ BaseSchema.loadable_fields self).
  { rewrite loadable_fields_spec. intros (f' & Hf' & Hload).
    rewrite (field_of_name_unique _ key f' f Hnd Hf' Hf) in Hload.
    congruence. }
  split; [exact Hout |].
  destruct (first_unknown_key (BaseSchema.loadable_fields self)
              original_data.*1)
    as (before & k & after & Hsplit & Hbefore & Hk).
  { apply Exists_exists. exists key. split; [| exact Hout].
    apply list_elem_of_fmap. by exists (key, v). }
  destruct (Hfmt k) as [msg Hmsg].
  exists k, msg. split_and!; [| exact Hk | exact Hmsg |].
  - rewrite Hsplit. apply elem_of_app. right. apply elem_of_cons. by left.
  - unfold BaseSchema._check_unknown_fields. rewrite Hsplit.
    rewrite check_keys_first_unknown by done.
    by apply raise_unknown_field_run.
Qed.

Lemma dump_only_key_is_rejected_witness :
  ("created" ∉ BaseSchema.loadable_fields Examples.stamped_schema)
  ∧ ∃ k msg,
      k ∈ [("name", VStr "Ada"); ("created", VInt 2016)].*1
      ∧ (k ∉ BaseSchema.loadable_fields Examples.stamped_schema)
      ∧ Format.format
          (I18n.translate Examples.plain BaseSchema.unknown_field_name) k
        = Ok msg
      ∧ BaseSchema._check_unknown_fields Examples.stamped_schema VNone
          [("name", VStr "Ada"); ("created", VInt 2016)] Examples.plain
        = (Raise (ValidationError msg), Examples.plain).
Proof.
  apply (dump_only_key_is_rejected Examples.plain Examples.stamped_schema
           VNone [("name", VStr "Ada"); ("created", VInt 2016)]
           "created" Examples.created_field (VInt 2016)).
  - simpl. compute_done.
  - simpl. apply elem_of_cons. right. apply elem_of_cons. by left.
  - reflexivity.
  - apply elem_of_cons. right. apply elem_of_cons. by left.
  - intros k. eexists. apply format_unknown_field_name.
Defined.

(** ** Projection: the walk over the resolution order *)

Lemma first_pure_field_class_found (h : Hierarchy) (classes : list Cls) :
  Exists (λ c, is_pure_field_class h c = true) classes →
  ∃ before m_class after,
    classes = before ++ m_class :: after
    ∧ Forall (λ c, is_pure_field_class h c = false) before
    ∧ is_pure_field_class h m_class = true
    ∧ first_pure_field_class h classes = Some m_class.
Proof.
  induction classes as [|c classes IH]; intros Hex.
  - by apply Exists_nil in Hex.
  - destruct (is_pure_field_class h c) eqn:Hc.
    + exists [], c, classes. simpl. rewrite Hc.
      split_and!; [done | constructor | done | done].
    + apply Exists_cons in Hex as [Hex | Hex]; [congruence |].
      destruct (IH Hex) as (before & m & after & -> & Hall & Hm & Hfirst).
      exists (c :: before), m, after. simpl. rewrite Hc.
      split_and!; [done | by constructor | done | done].
Qed.

Lemma first_pure_field_class_none (h : Hierarchy) (classes : list Cls) :
  Forall (λ c, is_pure_field_class h c = false) classes →
  first_pure_field_class h classes = None.
Proof.
  induction 1 as [|c classes Hc _ IH]; simpl; [done |]. by rewrite Hc.
Qed.

(** In a hierarchy that holds [BaseField] as abstract.py declares it,
    marshmallow's [Field] passes the test of the loop, and is in the
    resolution order of every class below [BaseField]. *)
Lemma ma_Field_is_pure (h : Hierarchy) :
  umongo_hierarchy h → is_pure_field_class h ma_Field = true.
Proof.
  intros Hh. unfold is_pure_field_class, issubclass.
  rewrite bool_decide_false by apply (mro_ma_Field_pure h Hh).
  rewrite bool_decide_true by apply (mro_ma_Field h Hh). reflexivity.
Qed.

Lemma ma_Field_above_fields (h : Hierarchy) (c : Cls) :
  umongo_hierarchy h → issubclass h c BaseField_cls = true →
  ma_Field ∈ h c.
Proof.
  intros Hh Hsub. apply bool_decide_eq_true_1 in Hsub.
  apply (mro_closed h Hh c BaseField_cls Hsub).
  rewrite (mro_BaseField h Hh). apply elem_of_cons. right.
  apply (mro_ma_Field h Hh).
Qed.

(** The entries of [params] win over the collected ones. *)
Lemma update_with_params_lookup (kwargs : gmap string PyVal)
    (params : option (gmap string PyVal)) (k : string) :
  update_with_params kwargs params !! k
  = match params ≫= (λ p, p !! k) with
    | Some v => Some v
    | None => kwargs !! k
    end.
Proof.
  destruct params as [p|]; simpl; [| reflexivity].
  destruct (Nat.eqb_spec (size p) 0) as [Hsize | Hsize].
  - apply map_size_empty_inv in Hsize. subst p. by rewrite lookup_empty.
  - rewrite lookup_union. by destruct (p !! k), (kwargs !! k).
Qed.

Lemma hierarchy_of_entry (table : list (Cls * list Cls)) (c d : Cls) :
  d ∈ hierarchy_of table c → (c, hierarchy_of table c) ∈ table.
Proof.
  induction table as [|[c' order] table IH]; simpl.
  - intros H. by apply elem_of_nil in H.
  - destruct (String.eqb_spec c c') as [-> | Hne]; intros H.
    + apply elem_of_cons. by left.
    + apply elem_of_cons. right. by apply IH.
Qed.

(** The resolution orders of a table are closed when its entries are. *)
Lemma hierarchy_of_closed (table : list (Cls * list Cls)) :
  forallb (closed_entry table) table = true →
  ∀ c d, d ∈ hierarchy_of table c →
         hierarchy_of table d ⊆ hierarchy_of table c.
Proof.
  intros Hall c d Hd x Hx.
  pose proof (hierarchy_of_entry table c d Hd) as Hentry.
  rewrite forallb_forall in Hall.
  specialize (Hall _ (proj1 (list_elem_of_In _ _) Hentry)).
  unfold closed_entry in Hall. simpl in Hall.
  rewrite forallb_forall in Hall.
  specialize (Hall d (proj1 (list_elem_of_In _ _) Hd)).
  rewrite forallb_forall in Hall.
  specialize (Hall x (proj1 (list_elem_of_In _ _) Hx)).
  by apply bool_decide_eq_true_1 in Hall.
Qed.

Lemma examples_hierarchy : umongo_hierarchy Examples.mro.
Proof.
  split.
  - reflexivity.
  - compute_done.
  - compute_done.
  - apply hierarchy_of_closed. vm_compute. reflexivity.
Qed.

(** The classes the loop passes over fail its test, spelled out. *)
Lemma not_pure_field_class (h : Hierarchy) (c : Cls) :
  is_pure_field_class h c = false ↔
  issubclass h c BaseField_cls = true ∨ issubclass h c ma_Field = false.
Proof.
  unfold is_pure_field_class.
  destruct (issubclass h c BaseField_cls), (issubclass h c ma_Field);
    simpl; split; intros H; try done; auto; by destruct H.
Qed.

Lemma pure_field_class (h : Hierarchy) (c : Cls) :
  is_pure_field_class h c = true ↔
  issubclass h c ma_Field = true ∧ issubclass h c BaseField_cls = false.
Proof.
  unfold is_pure_field_class.
  destruct (issubclass h c BaseField_cls), (issubclass h c ma_Field);
    simpl; split; intros H; try done; by destruct H.
Qed.

(** C7.  In a hierarchy where [BaseField] inherits marshmallow's [Field]:
    for a receiver whose class is below [BaseField], the projection is
    the call of the first class of its resolution order that is a
    subclass of marshmallow's [Field] and not one of [BaseField], with
    the collected parameters, in which the entries of [params] win; the
    object comes back with its error messages wrapped, and an exception
    of the constructor comes out.  Such a class always exists for a
    field.  When no class of the resolution order passes the test, the
    receiver is no field and the call fails with [AttributeError]. *)
Theorem as_marshmallow_field_first_pure_ancestor (h : Hierarchy)
    (construct : Cls → gmap string PyVal → Result Projected)
    (self : BaseField.Field) (params : option (gmap string PyVal))
    (mongo_world : bool) :
  umongo_hierarchy h →
  (issubclass h (BaseField.type_ self) BaseField_cls = true →
   ∃ before m_class after kwargs,
     h (BaseField.type_ self) = before ++ m_class :: after
     ∧ Forall (λ c, issubclass h c BaseField_cls = true
                    ∨ issubclass h c ma_Field = false) before
     ∧ issubclass h m_class ma_Field = true
     ∧ issubclass h m_class BaseField_cls = false
     ∧ (∀ k, kwargs !! k
             = match params ≫= (λ p, p !! k) with
               | Some v => Some v
               | None =>
                   BaseField._extract_marshmallow_field_params
                     self mongo_world !! k
               end)
     ∧ BaseField.as_marshmallow_field h construct self params mongo_world
       = match construct m_class kwargs with
         | Ok m_field => Ok (Some (wrap_error_messages m_field))
         | Raise e => Raise e
         end)
  ∧ (Forall (λ c, issubclass h c BaseField_cls = true
                  ∨ issubclass h c ma_Field = false)
            (h (BaseField.type_ self)) →
     issubclass h (BaseField.type_ self) BaseField_cls = false
     ∧ BaseField.as_marshmallow_field h construct self params mongo_world
       = Raise (AttributeError BaseField.extract_method)).
Proof.
  intros Hh. split.
  - intros Hsub.
    destruct (first_pure_field_class_found h (h (BaseField.type_ self)))
      as (before & m & after & Hsplit & Hbefore & Hm & Hfirst).
    { apply Exists_exists. exists ma_Field.
      split; [by apply ma_Field_above_fields | by apply ma_Field_is_pure]. }
    apply pure_field_class in Hm as [Hfield Hbase].
    exists before, m, after,
      (update_with_params
         (BaseField._extract_marshmallow_field_params self mongo_world)
         params).
    split_and!; [done | | done | done | |].
    + eapply Forall_impl; [exact Hbefore |].
      intros c Hc. by apply not_pure_field_class.
    + intros k. apply update_with_params_lookup.
    + unfold BaseField.as_marshmallow_field. by rewrite Hsub, Hfirst.
  - intros Hnone.
    assert (Hsub : issubclass h (BaseField.type_ self) BaseField_cls = false).
    { destruct (issubclass h (BaseField.type_ self) BaseField_cls) eqn:Hsub;
        [| done].
      exfalso.
      pose proof (ma_Field_above_fields h _ Hh Hsub) as Hin.
      pose proof (proj1 (Forall_forall _ _) Hnone _ Hin) as Hfail.
      apply not_pure_field_class in Hfail.
      by rewrite (ma_Field_is_pure h Hh) in Hfail. }
    split; [exact Hsub |].
    unfold BaseField.as_marshmallow_field. by rewrite Hsub.
Qed.

Lemma as_marshmallow_field_first_pure_ancestor_witness :
  (issubclass Examples.mro (BaseField.type_ Examples.nick_field)
     BaseField_cls = true →
   ∃ before m_class after kwargs,
     Examples.mro (BaseField.type_ Examples.nick_field)
       = before ++ m_class :: after
     ∧ Forall (λ c, issubclass Examples.mro c BaseField_cls = true
                    ∨ issubclass Examples.mro c ma_Field = false) before
     ∧ issubclass Examples.mro m_class ma_Field = true
     ∧ issubclass Examples.mro m_class BaseField_cls = false
     ∧ (∀ k, kwargs !! k
             = match Some ({[ "required" := VBool true ]}
                             : gmap string PyVal) ≫= (λ p, p !! k) with
               | Some v => Some v
               | None =>
                   BaseField._extract_marshmallow_field_params
                     Examples.nick_field true !! k
               end)
     ∧ BaseField.as_marshmallow_field Examples.mro Examples.ma_init
         Examples.nick_field (Some {[ "required" := VBool true ]}) true
       = match Examples.ma_init m_class kwargs with
         | Ok m_field => Ok (Some (wrap_error_messages m_field))
         | Raise e => Raise e
         end)
  ∧ (Forall (λ c, issubclass Examples.mro c BaseField_cls = true
                  ∨ issubclass Examples.mro c ma_Field = false)
            (Examples.mro (BaseField.type_ Examples.nick_field)) →
     issubclass Examples.mro (BaseField.type_ Examples.nick_field)
       BaseField_cls = false
     ∧ BaseField.as_marshmallow_field Examples.mro Examples.ma_init
         Examples.nick_field (Some {[ "required" := VBool true ]}) true
       = Raise (AttributeError BaseField.extract_method)).
Proof.
  apply (as_marshmallow_field_first_pure_ancestor Examples.mro
           Examples.ma_init Examples.nick_field
           (Some {[ "required" := VBool true ]}) true).
  exact examples_hierarchy.
Defined.

(** The field [nick] of class [StrField] projects onto marshmallow's
    [String]: [StrField] and [BaseField] come first in the resolution
    order and are passed over. *)
Lemma projection_of_nick_field :
  m_class <$> (match BaseField.as_marshmallow_field Examples.mro
                       Examples.ma_init Examples.nick_field None true with
               | Ok r => r
               | Raise _ => None
               end)
  = Some Examples.ma_String.
Proof. reflexivity. Qed.

(** A parameter the constructor refuses: its exception comes out of the
    projection. *)
Lemma projection_constructor_raises :
  BaseField.as_marshmallow_field Examples.mro Examples.ma_init
    Examples.name_field (Some {[ "validate" := VInt 5 ]}) false
  = Raise ValueError.
Proof. reflexivity. Qed.

(** A receiver that is no field: the call fails at the lookup of the
    method. *)
Lemma projection_of_non_field :
  BaseField.as_marshmallow_field Examples.mro Examples.ma_init
    Examples.detached_field None false
  = Raise (AttributeError "_extract_marshmallow_field_params").
Proof. reflexivity. Qed.

(** ** Projection of a validator *)

(** When no class of the resolution order passes the test of the loop,
    which asks for a subclass of marshmallow's [Field], the projection of
    a validator never gives an object: it raises, or it gives [None]. *)
Lemma as_marshmallow_validator_gives_nothing (h : Hierarchy)
    (self : BaseValidator.Validator) (params : option (gmap string PyVal))
    (mongo_world : bool) (w : I18n.World) (p : Projected) :
  Forall (λ c, is_pure_field_class h c = false)
         (h (BaseValidator.type_ self)) →
  (BaseValidator.as_marshmallow_validator h self params mongo_world w).1
  ≠ Ok (Some p).
Proof.
  intros Hnone. unfold BaseValidator.as_marshmallow_validator.
  unfold mbind, StateErr_bind.
  destruct (BaseValidator.collect self BaseValidator.projected_names w)
    as [[kwargs | e] w']; simpl; [| discriminate].
  rewrite (first_pure_field_class_none _ _ Hnone). simpl. discriminate.
Qed.

(** An attribute the validator does not have stops the collection. *)
Lemma collect_missing_attribute (self : BaseValidator.Validator)
    (name : string) (rest : list string) (w : I18n.World) :
  name ≠ "error" → name ≠ "_error" →
  BaseValidator.attrs self !! name = None →
  BaseValidator.collect self (name :: rest) w
  = (Raise (AttributeError name), w).
Proof.
  intros Hn1 Hn2 Hnone. simpl. unfold mbind, StateErr_bind.
  unfold BaseValidator.getattr.
  destruct (String.eqb_spec name "error"); [done |].
  destruct (String.eqb_spec name "_error"); [done |].
  by rewrite Hnone.
Qed.

(** C4.  The projection of the validator [Range(min=0)] raises
    [AttributeError]: the validator has no attribute [default], the
    first one the method asks for.  A validator that was given all ten
    attributes gets [None]: no class of its resolution order is a
    subclass of marshmallow's [Field].  In neither case is a validator
    returned. *)
Theorem as_marshmallow_validator_returns_no_validator :
  BaseValidator.as_marshmallow_validator Examples.mro
    Examples.range_validator None false Examples.plain
    = (Raise (AttributeError "default"), Examples.plain)
  ∧ BaseValidator.as_marshmallow_validator Examples.mro
      Examples.dressed_validator None false Examples.plain
    = (Ok None, Examples.plain)
  ∧ Forall (λ c, is_pure_field_class Examples.mro c = false)
           (Examples.mro Examples.Range).
Proof.
  split_and!.
  - unfold BaseValidator.as_marshmallow_validator,
      BaseValidator.projected_names.
    unfold mbind at 1, StateErr_bind at 1.
    rewrite collect_missing_attribute; [done | done | done |].
    vm_compute. reflexivity.
  - vm_compute. reflexivity.
  - repeat constructor.
Qed.

(** * Further properties of abstract.py *)

(** ** The check of unknown keys, as a whole *)

(** Raising for an unknown key never comes back normally, and leaves the
    catalog as it was. *)
Lemma raise_unknown_field_raises (key : string) (w : I18n.World) :
  ∃ e, BaseSchema.raise_unknown_field key w = (Raise e, w).
Proof.
  unfold BaseSchema.raise_unknown_field, mbind, StateErr_bind.
  rewrite gettext_run. unfold lift.
  destruct (Format.format _ key) as [msg | e]; eexists; reflexivity.
Qed.

(** X1.  [_check_unknown_fields] returns normally exactly when every key
    of the input is the declared name of a field that is not
    [dump_only]; an empty input always passes.  Whether it returns or
    raises, the catalog is the one before the call. *)
Theorem check_unknown_fields_accepts_iff (w : I18n.World)
    (self : BaseSchema.Schema) (data : PyVal)
    (original_data : list (string * PyVal)) :
  (BaseSchema._check_unknown_fields self data original_data w = (Ok tt, w)
   ↔ ∀ k, k ∈ original_data.*1 →
          ∃ f, (k, f) ∈ BaseSchema.fields self
               ∧ BaseField.dump_only f = false)
  ∧ (BaseSchema._check_unknown_fields self data original_data w).2 = w
  ∧ BaseSchema._check_unknown_fields self data [] w = (Ok tt, w).
Proof.
  split_and!; [| | reflexivity].
  - unfold BaseSchema._check_unknown_fields.
    destruct (decide (Forall (λ k, k ∈ BaseSchema.loadable_fields self)
                             original_data.*1)) as [Hall | Hnot].
    + rewrite check_keys_loadable by done. split; [| done].
      intros _ k Hk. apply loadable_fields_spec.
      by apply (proj1 (Forall_forall _ _) Hall).
    + apply not_Forall_Exists in Hnot; [| intros k; apply _].
      destruct (first_unknown_key _ _ Hnot)
        as (before & key & after & Hsplit & Hbefore & Hkey).
      rewrite Hsplit, check_keys_first_unknown by done.
      destruct (raise_unknown_field_raises key w) as [e ->].
      split; [discriminate |]. intros Hall. exfalso. apply Hkey.
      apply loadable_fields_spec, Hall.
      apply elem_of_app. right. apply elem_of_cons. by left.
  - unfold BaseSchema._check_unknown_fields.
    destruct (decide (Forall (λ k, k ∈ BaseSchema.loadable_fields self)
                             original_data.*1)) as [Hall | Hnot].
    + by rewrite check_keys_loadable.
    + apply not_Forall_Exists in Hnot; [| intros k; apply _].
      destruct (first_unknown_key _ _ Hnot)
        as (before & key & after & Hsplit & Hbefore & Hkey).
      rewrite Hsplit, check_keys_first_unknown by done.
      by destruct (raise_unknown_field_raises key w) as [e ->].
Qed.

(** The loadable names of a schema are read off the names and the
    [dump_only] flags alone. *)
Lemma loadable_fields_of_directions (self : BaseSchema.Schema) :
  BaseSchema.loadable_fields self
  = omap (λ p : string * bool, if p.2 then None else Some p.1)
         ((λ kv, (kv.1, BaseField.dump_only kv.2))
            <$> BaseSchema.fields self).
Proof.
  unfold BaseSchema.loadable_fields.
  induction (BaseSchema.fields self) as [|[k f] items IH]; [done |].
  cbn. destruct (BaseField.dump_only f); cbn; [exact IH |].
  f_equal. exact IH.
Qed.

(** X2.  Two schemas that declare the same names in the same order, with
    the same [dump_only] flags, accept and reject the same inputs with
    the same outcome: the storage alias ([attribute]), [load_only],
    [required] and every other attribute of a field play no part in the
    check, and neither does [data]. *)
Theorem check_unknown_fields_by_declared_name (w : I18n.World)
    (self other : BaseSchema.Schema) (data data' : PyVal)
    (original_data : list (string * PyVal)) :
  (λ kv, (kv.1, BaseField.dump_only kv.2)) <$> BaseSchema.fields self
    = (λ kv, (kv.1, BaseField.dump_only kv.2)) <$> BaseSchema.fields other →
  BaseSchema._check_unknown_fields self data original_data w
  = BaseSchema._check_unknown_fields other data' original_data w.
Proof.
  intros Hsame. unfold BaseSchema._check_unknown_fields.
  rewrite !loadable_fields_of_directions. by rewrite Hsame.
Qed.

(** The alias [n] of the field [nick] is not a key the check accepts. *)
Lemma check_unknown_fields_by_declared_name_witness :
  BaseSchema._check_unknown_fields Examples.aliased_schema VNone
    [("n", VStr "Bob")] Examples.plain
  = BaseSchema._check_unknown_fields Examples.unaliased_schema
      (VDict []) [("n", VStr "Bob")] Examples.plain
  ∧ BaseSchema._check_unknown_fields Examples.aliased_schema VNone
      [("n", VStr "Bob")] Examples.plain
    = (Raise (ValidationError "Unknown field name n."), Examples.plain).
Proof.
  split; [| reflexivity].
  apply (check_unknown_fields_by_declared_name Examples.plain
           Examples.aliased_schema Examples.unaliased_schema
           VNone (VDict []) [("n", VStr "Bob")]).
  reflexivity.
Defined.

(** ** What a field hands to marshmallow *)

(** X3.  [_extract_marshmallow_field_params] collects exactly the nine
    marshmallow parameters, and [attribute] besides only in the mongo
    world and for a field that has an alias; [io_validate], [unique] and
    [instance], which only umongo knows, are never among them. *)
Theorem extract_marshmallow_field_params_names (self : BaseField.Field)
    (mongo_world : bool) :
  dom (BaseField._extract_marshmallow_field_params self mongo_world)
  = list_to_set
      [ "default"; "load_from"; "validate"; "required"; "allow_none";
        "load_only"; "dump_only"; "missing"; "error_messages" ]
    ∪ (if mongo_world && BaseField.truthy (BaseField.attribute self)
       then {[ "attribute" ]} else (∅ : gset string))
  ∧ BaseField._extract_marshmallow_field_params self mongo_world
      !! "attribute"
    = (if mongo_world && BaseField.truthy (BaseField.attribute self)
       then Some (of_str (BaseField.attribute self)) else None)
  ∧ Forall (λ n, BaseField._extract_marshmallow_field_params
                   self mongo_world !! n = None)
           [ "io_validate"; "unique"; "instance" ].
Proof.
  unfold BaseField._extract_marshmallow_field_params.
  destruct (mongo_world && BaseField.truthy (BaseField.attribute self)).
  - split_and!.
    + rewrite !dom_insert_L, dom_empty_L. simpl. set_solver.
    + by rewrite lookup_insert_eq.
    + repeat constructor; by repeat (rewrite lookup_insert_ne by done).
  - split_and!.
    + rewrite !dom_insert_L, dom_empty_L. simpl. set_solver.
    + by repeat (rewrite lookup_insert_ne by done).
    + repeat constructor; by repeat (rewrite lookup_insert_ne by done).
Qed.

(** ** The class a projection picks *)

Lemma first_pure_field_class_some (h : Hierarchy) (classes : list Cls)
    (c : Cls) :
  first_pure_field_class h classes = Some c →
  c ∈ classes ∧ is_pure_field_class h c = true.
Proof.
  induction classes as [|d classes IH]; simpl; [discriminate |].
  destruct (is_pure_field_class h d) eqn:Hd.
  - intros [= <-]. split; [apply elem_of_cons; by left | done].
  - intros Hc. destruct (IH Hc) as [Hin Hpure].
    split; [apply elem_of_cons; by right | done].
Qed.

Lemma first_pure_field_class_none_inv (h : Hierarchy)
    (classes : list Cls) :
  first_pure_field_class h classes = None →
  Forall (λ c, is_pure_field_class h c = false) classes.
Proof.
  induction classes as [|c classes IH]; simpl; [constructor |].
  destruct (is_pure_field_class h c) eqn:Hc; [discriminate |].
  intros Hnone. constructor; [done | by apply IH].
Qed.

(** X4.  In any hierarchy, well formed or not: an object that
    [as_marshmallow_field] returns is what the constructor of a class
    built, that class being taken from the resolution order of the
    receiver's class, a subclass of marshmallow's [Field] and not a
    subclass of [BaseField], and the object has its error messages
    wrapped; an exception that comes out is the [AttributeError] of a
    receiver that is no field, or the exception of the constructor of
    such a class; [None] is returned only when no class of the
    resolution order passes the test. *)
Theorem as_marshmallow_field_gives_pure_class (h : Hierarchy)
    (construct : Cls → gmap string PyVal → Result Projected)
    (self : BaseField.Field) (params : option (gmap string PyVal))
    (mongo_world : bool) :
  match BaseField.as_marshmallow_field h construct self params
          mongo_world with
  | Ok (Some p) =>
      ∃ c kw m_field,
        c ∈ h (BaseField.type_ self)
        ∧ issubclass h c ma_Field = true
        ∧ issubclass h c BaseField_cls = false
        ∧ construct c kw = Ok m_field
        ∧ p = wrap_error_messages m_field
        ∧ i18n_errors p = true
  | Ok None =>
      Forall (λ c, issubclass h c BaseField_cls = true
                   ∨ issubclass h c ma_Field = false)
             (h (BaseField.type_ self))
  | Raise e =>
      (issubclass h (BaseField.type_ self) BaseField_cls = false
       ∧ e = AttributeError BaseField.extract_method)
      ∨ ∃ c kw,
          c ∈ h (BaseField.type_ self)
          ∧ issubclass h c ma_Field = true
          ∧ issubclass h c BaseField_cls = false
          ∧ construct c kw = Raise e
  end.
Proof.
  unfold BaseField.as_marshmallow_field.
  destruct (issubclass h (BaseField.type_ self) BaseField_cls) eqn:Hsub;
    [| by left].
  destruct (first_pure_field_class h (h (BaseField.type_ self)))
    as [c|] eqn:Hfirst.
  - destruct (first_pure_field_class_some _ _ _ Hfirst) as [Hin Hpure].
    apply pure_field_class in Hpure as [Hfield Hbase].
    destruct (construct c _) as [m_field | e] eqn:Hc.
    + exists c. eexists. exists m_field. by split_and!.
    + right. exists c. eexists. by split_and!.
  - eapply Forall_impl; [by apply first_pure_field_class_none_inv |].
    intros c Hc. by apply not_pure_field_class.
Qed.

(** ** Projection of a schema *)

Lemma project_fields_ok (h : Hierarchy)
    (construct : Cls → gmap string PyVal → Result Projected)
    (params : gmap string (gmap string PyVal)) (mongo_world : bool)
    (items : list (string * BaseField.Field))
    (acc nmspc : gmap string BaseSchema.Member) :
  NoDup items.*1 →
  BaseSchema.project_fields h construct params mongo_world items acc
    = Ok nmspc →
  (∀ n f, (n, f) ∈ items →
     ∃ r, BaseField.as_marshmallow_field h construct f (params !! n)
            mongo_world = Ok r
          ∧ nmspc !! n = Some (BaseSchema.FieldMember r))
  ∧ (∀ n, n ∉ items.*1 → nmspc !! n = acc !! n).
Proof.
  revert acc. induction items as [|[n0 f0] items IH]; intros acc Hnd Hrun.
  - simpl in Hrun. injection Hrun as <-. split; [| done].
    intros n f H. by apply elem_of_nil in H.
  - simpl in Hnd. apply NoDup_cons in Hnd as [Hn0 Hnd]. simpl in Hrun.
    destruct (BaseField.as_marshmallow_field h construct f0 (params !! n0)
                mongo_world) as [r0 | e] eqn:Hr0; [| discriminate].
    destruct (IH _ Hnd Hrun) as [Hin Hout]. split.
    + intros n f Hnf. apply elem_of_cons in Hnf as [[= -> ->] | Hnf].
      * exists r0. split; [done |].
        rewrite (Hout n0 Hn0). apply lookup_insert_eq.
      * by apply Hin.
    + intros n Hn. apply not_elem_of_cons in Hn as [Hne Hn].
      rewrite (Hout n Hn). by apply lookup_insert_ne.
Qed.

Lemma project_fields_raise (h : Hierarchy)
    (construct : Cls → gmap string PyVal → Result Projected)
    (params : gmap string (gmap string PyVal)) (mongo_world : bool)
    (items : list (string * BaseField.Field))
    (acc : gmap string BaseSchema.Member) (e : Exn) :
  BaseSchema.project_fields h construct params mongo_world items acc
    = Raise e →
  ∃ n f, (n, f) ∈ items
         ∧ BaseField.as_marshmallow_field h construct f (params !! n)
             mongo_world = Raise e.
Proof.
  revert acc. induction items as [|[n0 f0] items IH]; intros acc Hrun;
    simpl in Hrun; [discriminate |].
  destruct (BaseField.as_marshmallow_field h construct f0 (params !! n0)
              mongo_world) as [r0 | e0] eqn:Hr0.
  - destruct (IH _ Hrun) as (n & f & Hin & Hraise).
    exists n, f. split; [apply elem_of_cons; by right | done].
  - injection Hrun as ->. exists n0, f0.
    split; [apply elem_of_cons; by left | done].
Qed.

Lemma project_fields_returns (h : Hierarchy)
    (construct : Cls → gmap string PyVal → Result Projected)
    (params : gmap string (gmap string PyVal)) (mongo_world : bool)
    (items : list (string * BaseField.Field))
    (acc : gmap string BaseSchema.Member) :
  (∀ n f, (n, f) ∈ items →
     ∃ r, BaseField.as_marshmallow_field h construct f (params !! n)
            mongo_world = Ok r) →
  ∃ nmspc,
    BaseSchema.project_fields h construct params mongo_world items acc
      = Ok nmspc.
Proof.
  revert acc. induction items as [|[n0 f0] items IH]; intros acc Hall; simpl.
  - by eexists.
  - destruct (Hall n0 f0) as [r0 ->]; [apply elem_of_cons; by left |].
    apply IH. intros n f Hnf. apply Hall. apply elem_of_cons. by right.
Qed.

(** X5.  For a schema none of whose fields is named
    [__check_unknown_fields]: when [as_marshmallow_schema] returns, the
    class it made is named [Marshmallow] followed by the name of the
    schema class and has the given base alone; under the name of each
    field it holds the projection of that field, made with the
    parameters [params] has for that name; it holds the check of unknown
    keys exactly when asked for, and nothing under any other name.  When
    it raises, the exception is that of the projection of one of the
    fields; and it returns whenever all those projections do. *)
Theorem as_marshmallow_schema_members (h : Hierarchy)
    (construct : Cls → gmap string PyVal → Result Projected)
    (type_name : string) (self : BaseSchema.Schema)
    (params : option (gmap string (gmap string PyVal)))
    (base_schema_cls : Cls) (check_unknown_fields mongo_world : bool) :
  NoDup (BaseSchema.fields self).*1 →
  BaseSchema.check_member ∉ (BaseSchema.fields self).*1 →
  (∀ cls,
     BaseSchema.as_marshmallow_schema h construct type_name self params
       base_schema_cls check_unknown_fields mongo_world = Ok cls →
     BaseSchema.class_name cls = "Marshmallow" +:+ type_name
     ∧ BaseSchema.bases cls = [base_schema_cls]
     ∧ (∀ n f, (n, f) ∈ BaseSchema.fields self →
          ∃ r, BaseField.as_marshmallow_field h construct f
                 (BaseSchema.params_or_empty params !! n) mongo_world
                 = Ok r
               ∧ BaseSchema.nmspc cls !! n
                 = Some (BaseSchema.FieldMember r))
     ∧ BaseSchema.nmspc cls !! BaseSchema.check_member
       = (if check_unknown_fields then Some BaseSchema.CheckUnknownFields
          else None)
     ∧ (∀ n, n ∉ (BaseSchema.fields self).*1 →
             n ≠ BaseSchema.check_member →
             BaseSchema.nmspc cls !! n = None))
  ∧ (∀ e,
       BaseSchema.as_marshmallow_schema h construct type_name self params
         base_schema_cls check_unknown_fields mongo_world = Raise e →
       ∃ n f, (n, f) ∈ BaseSchema.fields self
              ∧ BaseField.as_marshmallow_field h construct f
                  (BaseSchema.params_or_empty params !! n) mongo_world
                = Raise e)
  ∧ ((∀ n f, (n, f) ∈ BaseSchema.fields self →
        ∃ r, BaseField.as_marshmallow_field h construct f
               (BaseSchema.params_or_empty params !! n) mongo_world
               = Ok r) →
     ∃ cls,
       BaseSchema.as_marshmallow_schema h construct type_name self params
         base_schema_cls check_unknown_fields mongo_world = Ok cls).
Proof.
  intros Hnd Hcheck. unfold BaseSchema.as_marshmallow_schema.
  split_and!.
  - intros cls Hrun.
    destruct (BaseSchema.project_fields h construct
                (BaseSchema.params_or_empty params) mongo_world
                (BaseSchema.fields self) ∅) as [nmspc | e] eqn:Hfields;
      [| discriminate].
    injection Hrun as <-. simpl.
    destruct (project_fields_ok _ _ _ _ _ _ _ Hnd Hfields) as [Hin Hout].
    split_and!; [done | done | | |].
    + intros n f Hnf. destruct (Hin n f Hnf) as (r & Hr & Hlook).
      exists r. split; [done |].
      destruct check_unknown_fields; [| done].
      rewrite lookup_insert_ne; [done |].
      intros <-. apply Hcheck. apply list_elem_of_fmap.
      by exists (BaseSchema.check_member, f).
    + destruct check_unknown_fields.
      * apply lookup_insert_eq.
      * rewrite (Hout _ Hcheck). apply lookup_empty.
    + intros n Hn Hne. destruct check_unknown_fields.
      * rewrite lookup_insert_ne by done. rewrite (Hout n Hn).
        apply lookup_empty.
      * rewrite (Hout n Hn). apply lookup_empty.
  - intros e Hrun.
    destruct (BaseSchema.project_fields h construct
                (BaseSchema.params_or_empty params) mongo_world
                (BaseSchema.fields self) ∅) as [nmspc | e'] eqn:Hfields;
      [discriminate |].
    injection Hrun as ->. by eapply project_fields_raise.
  - intros Hall.
    destruct (project_fields_returns h construct
                (BaseSchema.params_or_empty params) mongo_world
                (BaseSchema.fields self) ∅ Hall) as [nmspc ->].
    by eexists.
Qed.

Lemma as_marshmallow_schema_members_witness :
  ∃ cls,
    BaseSchema.as_marshmallow_schema Examples.mro Examples.ma_init
      "PersonSchema" Examples.aliased_schema
      (Some {[ "nick" := {[ "required" := VBool true ]} ]})
      "marshmallow.schema.Schema" true false = Ok cls
    ∧ BaseSchema.class_name cls = "MarshmallowPersonSchema"
    ∧ BaseSchema.bases cls = ["marshmallow.schema.Schema"]
    ∧ BaseSchema.nmspc cls !! "__check_unknown_fields"
      = Some BaseSchema.CheckUnknownFields
    ∧ BaseSchema.nmspc cls !! "ghost" = None
    ∧ ∃ r, BaseField.as_marshmallow_field Examples.mro Examples.ma_init
             Examples.nick_field (Some {[ "required" := VBool true ]}) false
             = Ok r
           ∧ BaseSchema.nmspc cls !! "nick"
             = Some (BaseSchema.FieldMember r).
Proof.
  destruct (as_marshmallow_schema_members Examples.mro Examples.ma_init
              "PersonSchema" Examples.aliased_schema
              (Some {[ "nick" := {[ "required" := VBool true ]} ]})
              "marshmallow.schema.Schema" true false)
    as (Hok & _ & Hreturns).
  - simpl. compute_done.
  - simpl. compute_done.
  - destruct Hreturns as [cls Hcls].
    { intros n f Hnf. simpl in Hnf.
      repeat (apply elem_of_cons in Hnf as [[= -> ->] | Hnf];
              [eexists; vm_compute; reflexivity |]).
      by apply elem_of_nil in Hnf. }
    exists cls. split; [exact Hcls |].
    destruct (Hok cls Hcls) as (Hname & Hbases & Hmembers & Hcheck & Hother).
    split_and!; [exact Hname | exact Hbases | exact Hcheck | |].
    + apply Hother; [simpl; compute_done | discriminate].
    + destruct (Hmembers "nick" Examples.nick_field) as (r & Hr & Hlook).
      { simpl. apply elem_of_cons. right. apply elem_of_cons. by left. }
      exists r. split; [exact Hr | exact Hlook].
Defined.




(** ** The visitor of a schema *)

Lemma visit_fields_app {S : Type}
    (before after : list (string * BaseField.Field))
    (nested : BaseField.Field →
              option (string → string → BaseSchema.Visitor S
                      → StateErr S PyVal))
    (func : BaseSchema.Visitor S) (s : S) :
  BaseSchema.visit_fields (before ++ after) nested func s
  = match BaseSchema.visit_fields before nested func s with
    | (Ok _, s1) => BaseSchema.visit_fields after nested func s1
    | (Raise e, s1) => (Raise e, s1)
    end.
Proof.
  revert s. induction before as [|[name field] before IH]; intros s.
  - reflexivity.
  - simpl. unfold mbind, StateErr_bind.
    destruct (func _ name field s) as [[r | e] s1]; [| reflexivity].
    destruct (nested field) as [m |].
    + destruct (m _ name func s1) as [[r' | e] s2]; [apply IH | reflexivity].
    + simpl. apply IH.
Qed.

Lemma visit_fields_recording (items : list (string * BaseField.Field))
    (calls : list (string * string)) :
  BaseSchema.visit_fields items (λ _, None) Examples.recording_visitor calls
  = (Ok tt,
     calls ++ ((λ kv, (BaseField.attribute_or kv.2 kv.1, kv.1)) <$> items)).
Proof.
  revert calls. induction items as [|[name field] items IH]; intros calls.
  - simpl. by rewrite app_nil_r.
  - simpl. unfold mbind, StateErr_bind. simpl.
    rewrite IH. by rewrite <- app_assoc.
Qed.

(** X7.  For a schema whose fields have no [map_to_field] of their own,
    [map_to_field] calls the visitor once for every entry of
    [self.fields], in the order in which that dictionary iterates, with
    the storage path, which is the alias of the field when it has one
    and the name of the entry otherwise, and with the name of the
    entry. *)
Theorem map_to_field_visits_in_order (self : BaseSchema.Schema)
    (calls : list (string * string)) :
  BaseSchema.map_to_field self (λ _, None) Examples.recording_visitor calls
  = (Ok tt,
     calls ++ ((λ kv, (match BaseField.attribute kv.2 with
                       | Some a => if decide (a = "") then kv.1 else a
                       | None => kv.1
                       end, kv.1))
                 <$> BaseSchema.fields self)).
Proof.
  unfold BaseSchema.map_to_field. rewrite visit_fields_recording.
  do 2 f_equal. apply list_fmap_ext. intros _ [name field] _. simpl.
  unfold BaseField.attribute_or.
  destruct (BaseField.attribute field) as [a|]; [| done].
  destruct (String.eqb_spec a ""), (decide (a = "")); done.
Qed.

(** X8.  [map_to_field] stops at the first entry of [self.fields], in the
    order in which that dictionary iterates, for which the visitor
    raises: the exception comes out with the state the visitor left, and
    the entries that come later in the iteration are not visited. *)
Theorem map_to_field_stops_at_first_error {S : Type}
    (before after : list (string * BaseField.Field)) (name : string)
    (field : BaseField.Field)
    (nested : BaseField.Field →
              option (string → string → BaseSchema.Visitor S
                      → StateErr S PyVal))
    (func : BaseSchema.Visitor S) (e : Exn) (s s1 s2 : S) :
  BaseSchema.map_to_field (BaseSchema.mkSchema before) nested func s
    = (Ok tt, s1) →
  func (BaseField.attribute_or field name) name field s1 = (Raise e, s2) →
  BaseSchema.map_to_field
    (BaseSchema.mkSchema (before ++ (name, field) :: after)) nested func s
  = (Raise e, s2).
Proof.
  unfold BaseSchema.map_to_field. simpl. intros Hbefore Hfunc.
  rewrite visit_fields_app, Hbefore. simpl.
  unfold mbind, StateErr_bind. by rewrite Hfunc.
Qed.

(** A schema whose [fields] iterate as [name], [nick], [created], and a
    visitor that refuses [nick]: [name] is visited, [created] is not. *)
Lemma map_to_field_stops_at_first_error_witness :
  BaseSchema.map_to_field
    (BaseSchema.mkSchema
       ([("name", Examples.name_field)]
        ++ ("nick", Examples.nick_field)
        :: [("created", Examples.created_field)]))
    (λ _, None) Examples.refusing_visitor []
  = (Raise (KeyError "nick"), [("name", "name")]).
Proof.
  apply (map_to_field_stops_at_first_error
           [("name", Examples.name_field)]
           [("created", Examples.created_field)]
           "nick" Examples.nick_field (λ _, None) Examples.refusing_visitor
           (KeyError "nick") [] [("name", "name")] [("name", "name")]).
  - reflexivity.
  - reflexivity.
Defined.

(** ** Round trips of field classes that convert *)

(** X11.  For any field class whose two hooks undo each other on the
    values that are not [missing], the round trip through
    [serialize_to_mongo] and [deserialize_from_mongo] gives every such
    value back.  Reading is not guarded as writing is: the round trip of
    [missing] is what the reading hook makes of [missing]. *)
Theorem round_trip_of_inverse_hooks {S : Type} (cls : BaseField.Hooks S)
    (self : BaseField.Field) :
  (∀ v s, v ≠ VMissing →
     (BaseField._serialize_to_mongo cls self v
        ≫= BaseField._deserialize_from_mongo cls self) s = (Ok v, s)) →
  (∀ v s, v ≠ VMissing →
     (BaseField.serialize_to_mongo cls self v
        ≫= BaseField.deserialize_from_mongo cls self) s = (Ok v, s))
  ∧ ∀ s, (BaseField.serialize_to_mongo cls self VMissing
            ≫= BaseField.deserialize_from_mongo cls self) s
         = BaseField._deserialize_from_mongo cls self VMissing s.
Proof.
  intros Hinv. split.
  - intros v s Hv. rewrite <- (Hinv v s Hv).
    unfold BaseField.serialize_to_mongo, BaseField.deserialize_from_mongo.
    destruct v; try reflexivity. by destruct Hv.
  - intros s. reflexivity.
Qed.

(** With the hooks that box and unbox: every value but [missing] comes
    back, and the round trip of [missing] raises. *)
Lemma round_trip_of_inverse_hooks_witness :
  ((∀ v (s : unit), v ≠ VMissing →
      (BaseField.serialize_to_mongo Examples.boxing_hooks
         Examples.name_field v
         ≫= BaseField.deserialize_from_mongo Examples.boxing_hooks
              Examples.name_field) s = (Ok v, s))
   ∧ ∀ s : unit,
       (BaseField.serialize_to_mongo Examples.boxing_hooks
          Examples.name_field VMissing
          ≫= BaseField.deserialize_from_mongo Examples.boxing_hooks
               Examples.name_field) s
       = BaseField._deserialize_from_mongo Examples.boxing_hooks
           Examples.name_field VMissing s)
  ∧ (BaseField.serialize_to_mongo Examples.boxing_hooks
       Examples.name_field VMissing
       ≫= BaseField.deserialize_from_mongo Examples.boxing_hooks
            Examples.name_field) tt
    = (Raise ValueError, tt).
Proof.
  split; [| reflexivity].
  apply (round_trip_of_inverse_hooks Examples.boxing_hooks
           Examples.name_field).
  intros v s _. reflexivity.
Defined.

(** ** Projection of a validator, in general *)

Lemma getattr_plain (self : BaseValidator.Validator) (name : string)
    (w : I18n.World) :
  name ≠ "error" → name ≠ "_error" →
  BaseValidator.getattr self name w
  = match BaseValidator.attrs self !! name with
    | Some v => (Ok v, w)
    | None => (Raise (AttributeError name), w)
    end.
Proof.
  intros Hn1 Hn2. unfold BaseValidator.getattr.
  destruct (String.eqb_spec name "error"); [done |].
  destruct (String.eqb_spec name "_error"); [done |].
  by destruct (BaseValidator.attrs self !! name).
Qed.

Lemma collect_present (self : BaseValidator.Validator)
    (names : list string) (w : I18n.World) :
  Forall (λ n, n ≠ "error" ∧ n ≠ "_error"
               ∧ is_Some (BaseValidator.attrs self !! n)) names →
  ∃ kwargs, BaseValidator.collect self names w = (Ok kwargs, w).
Proof.
  induction 1 as [|name names (Hn1 & Hn2 & [v Hv]) _ [kwargs IH]]; simpl.
  - by eexists.
  - unfold mbind, StateErr_bind. rewrite getattr_plain by done.
    rewrite Hv, IH. by eexists.
Qed.

Lemma collect_first_absent (self : BaseValidator.Validator)
    (before after : list string) (name : string) (w : I18n.World) :
  Forall (λ n, n ≠ "error" ∧ n ≠ "_error"
               ∧ is_Some (BaseValidator.attrs self !! n)) before →
  name ≠ "error" → name ≠ "_error" →
  BaseValidator.attrs self !! name = None →
  BaseValidator.collect self (before ++ name :: after) w
  = (Raise (AttributeError name), w).
Proof.
  intros Hbefore Hn1 Hn2 Hnone.
  induction Hbefore as [|n before (Hm1 & Hm2 & [v Hv]) _ IH]; simpl.
  - unfold mbind, StateErr_bind. rewrite getattr_plain by done.
    by rewrite Hnone.
  - unfold mbind, StateErr_bind. rewrite getattr_plain by done.
    by rewrite Hv, IH.
Qed.

Lemma projected_names_plain :
  Forall (λ n, n ≠ "error" ∧ n ≠ "_error") BaseValidator.projected_names.
Proof. repeat constructor; discriminate. Qed.

(** X12.  [as_marshmallow_validator] raises [AttributeError] for the
    first of the ten names it reads, in the order of its tuple, that the
    validator has no attribute for; the catalog is left alone. *)
Theorem as_marshmallow_validator_first_absent_attribute (h : Hierarchy)
    (self : BaseValidator.Validator) (params : option (gmap string PyVal))
    (mongo_world : bool) (w : I18n.World)
    (before after : list string) (name : string) :
  BaseValidator.projected_names = before ++ name :: after →
  Forall (λ n, is_Some (BaseValidator.attrs self !! n)) before →
  BaseValidator.attrs self !! name = None →
  BaseValidator.as_marshmallow_validator h self params mongo_world w
  = (Raise (AttributeError name), w).
Proof.
  intros Hsplit Hbefore Hnone.
  pose proof projected_names_plain as Hplain. rewrite Hsplit in Hplain.
  apply Forall_app in Hplain as [Hpb Hpn].
  apply Forall_cons in Hpn as [[Hn1 Hn2] _].
  unfold BaseValidator.as_marshmallow_validator. rewrite Hsplit.
  unfold mbind at 1, StateErr_bind at 1.
  rewrite collect_first_absent; [done | | done | done | done].
  clear -Hbefore Hpb. induction Hbefore as [|n before Hn _ IH].
  - constructor.
  - apply Forall_cons in Hpb as [[H1 H2] Hpb].
    constructor; [done | by apply IH].
Qed.

(** A validator that has [default] and nothing else of the ten fails on
    [attribute]. *)
Lemma as_marshmallow_validator_first_absent_attribute_witness :
  BaseValidator.as_marshmallow_validator Examples.mro
    (BaseValidator.mkValidator Examples.Range None
       {[ "default" := VInt 0 ]})
    None false Examples.plain
  = (Raise (AttributeError "attribute"), Examples.plain).
Proof.
  apply (as_marshmallow_validator_first_absent_attribute Examples.mro
           (BaseValidator.mkValidator Examples.Range None
              {[ "default" := VInt 0 ]})
           None false Examples.plain
           ["default"]
           ["load_from"; "validate"; "required"; "allow_none"; "load_only";
            "dump_only"; "missing"; "error_messages"]
           "attribute").
  - reflexivity.
  - repeat constructor. simpl. by eexists.
  - reflexivity.
Defined.

(** X13.  For a validator that has all ten attributes, of a class with
    no marshmallow field among the classes of its resolution order,
    [as_marshmallow_validator] returns [None], whatever [params] and
    [mongo_world] are: no validator comes out of it. *)
Theorem as_marshmallow_validator_without_field_ancestor (h : Hierarchy)
    (self : BaseValidator.Validator) (params : option (gmap string PyVal))
    (mongo_world : bool) (w : I18n.World) :
  Forall (λ n, is_Some (BaseValidator.attrs self !! n))
         BaseValidator.projected_names →
  (∀ c, c ∈ h (BaseValidator.type_ self) → ma_Field ∉ h c) →
  BaseValidator.as_marshmallow_validator h self params mongo_world w
  = (Ok None, w).
Proof.
  intros Hattrs Hnofield.
  unfold BaseValidator.as_marshmallow_validator.
  destruct (collect_present self BaseValidator.projected_names w)
    as [kwargs Hkw].
  { pose proof projected_names_plain as Hplain.
    revert Hattrs Hplain.
    generalize BaseValidator.projected_names as names.
    induction names as [|n names IH]; intros Ha Hp; [constructor |].
    apply Forall_cons in Ha as [Hn Ha].
    apply Forall_cons in Hp as [[H1 H2] Hp].
    constructor; [done | by apply IH]. }
  unfold mbind, StateErr_bind. rewrite Hkw.
  rewrite first_pure_field_class_none; [reflexivity |].
  apply Forall_forall. intros c Hc. unfold is_pure_field_class, issubclass.
  rewrite (bool_decide_false (ma_Field ∈ h c)) by exact (Hnofield c Hc).
  apply andb_false_r.
Qed.

Lemma as_marshmallow_validator_without_field_ancestor_witness :
  BaseValidator.as_marshmallow_validator Examples.mro
    Examples.dressed_validator (Some {[ "min" := VInt 1 ]}) true
    Examples.plain
  = (Ok None, Examples.plain).
Proof.
  apply (as_marshmallow_validator_without_field_ancestor Examples.mro
           Examples.dressed_validator (Some {[ "min" := VInt 1 ]}) true
           Examples.plain).
  - repeat constructor; by eexists.
  - intros c Hc. simpl in Hc.
    repeat (apply elem_of_cons in Hc as [-> | Hc]; [compute_done |]).
    by apply elem_of_nil in Hc.
Defined.
